(** * exiftool-wrapper: the request/response contract of [metadata] and
      [metadataSync]

    A shallow embedding of [lib/exiftool-wrapper.js].  The module spawns the
    external [exiftool] binary, optionally pipes a buffer into it, collects
    its two output streams and parses the standard output as JSON.

    What is outside the module is a parameter of the model:
    - [JSON_parse], the platform's [JSON.parse] ([None] when it throws);
    - [exiftool], the child as the form that launched it receives it: the
      text each ['data'] chunk gives when it is appended, in order of
      arrival (for [metadataSync], the text of the two buffers [spawnSync]
      hands over), and the exit code, as a function of the argument vector
      and of the bytes written to the standard input.
    Every general statement below holds for all choices of both.  What
    [spawn] delivers in chunks and what [spawnSync] hands over for the same
    binary need not be the same text, so a statement that compares the two
    forms takes one child for each.

    The model covers a child that is launched and closes: the ['error']
    event of a binary that cannot be started is not part of it.  The
    completion function of the caller is recorded by the calls it receives
    and is taken to return normally.  The options [tags], [useBufferLimit],
    [maxBufferSize] and [config] have their documented types; [source] is
    any value, since both forms inspect it. *)

From Stdlib Require Import List String Ascii ZArith QArith Bool Lia.
From Stdlib.Strings Require Import Byte.
From Stdlib Require Import DecimalString.
Import ListNotations.
Set Warnings "-register-all".
Local Open Scope string_scope.
Local Open Scope Z_scope.

(** ** JavaScript values *)

(** The values the module handles: what a caller may pass as [source], what
    [JSON.parse] returns, and what ends up in the argument vector.  A string
    is a sequence of characters, each standing for one code unit; an object
    is the list of its own properties. *)
Inductive value : Type :=
| VUndefined
| VNull
| VBool (b : bool)
| VNum (x : Q)
| VStr (s : string)
| VArr (elems : list value)
| VObj (props : list (string * value))
| VBuffer (bytes : list byte).

(** [!v] is [negb (truthy v)]: undefined, null, false, zero and the empty
    string are falsy; every array, object and buffer is truthy. *)
Definition truthy (v : value) : bool :=
  match v with
  | VUndefined | VNull => false
  | VBool b => b
  | VNum x => negb (Qeq_bool x 0)
  | VStr s => negb (String.eqb s EmptyString)
  | VArr _ | VObj _ | VBuffer _ => true
  end.

(** [Buffer.isBuffer(v)], [typeof v === 'string'], [Array.isArray(v)]. *)
Definition isBuffer (v : value) : bool :=
  match v with VBuffer _ => true | _ => false end.
Definition isString (v : value) : bool :=
  match v with VStr _ => true | _ => false end.
Definition isArray (v : value) : bool :=
  match v with VArr _ => true | _ => false end.

Fixpoint get_prop (key : string) (props : list (string * value)) : value :=
  match props with
  | [] => VUndefined
  | (k, v) :: rest => if String.eqb k key then v else get_prop key rest
  end.

Definition VNat (n : nat) : value := VNum (inject_Z (Z.of_nat n)).

(** [v.length]; [None] when the property read throws (on undefined and
    null). *)
Definition get_length (v : value) : option value :=
  match v with
  | VUndefined | VNull => None
  | VBool _ | VNum _ => Some VUndefined
  | VStr s => Some (VNat (String.length s))
  | VArr elems => Some (VNat (List.length elems))
  | VObj props => Some (get_prop "length" props)
  | VBuffer bytes => Some (VNat (List.length bytes))
  end.

(** [v === 1]. *)
Definition strict_eq_1 (v : value) : bool :=
  match v with
  | VNum x => Qeq_bool x 1
  | _ => false
  end.

(** [v[0]] on a value whose [length] could be read. *)
Definition index0 (v : value) : value :=
  match v with
  | VStr (String c _) => VStr (String c EmptyString)
  | VArr (x :: _) => x
  | VObj props => get_prop "0" props
  | VBuffer (b :: _) => VNat (Byte.to_nat b)
  | _ => VUndefined
  end.

(** [`${n}`] for an integer. *)
Definition string_of_Z (n : Z) : string := NilZero.string_of_int (Z.to_int n).

(** [Buffer.prototype.slice(start, end)] of the platform: an offset is
    clamped to the buffer, a negative one counts from the end. *)
Definition adjustOffset (offset len : Z) : Z :=
  if offset =? 0 then 0
  else if offset <? 0 then (if 0 <? offset + len then offset + len else 0)
  else if offset <? len then offset
  else len.

Definition buffer_slice (b : list byte) (start stop : Z) : list byte :=
  let len := Z.of_nat (List.length b) in
  let s := adjustOffset start len in
  let e := adjustOffset stop len in
  let newLength := if s <? e then e - s else 0 in
  firstn (Z.to_nat newLength) (skipn (Z.to_nat s) b).

(** ** Errors *)

Inductive error_class := ClassError | ClassTypeError.

(** An error object: its constructor, its message, and the properties the
    module attaches to it ([None]: the property is not set). *)
Record js_error := mkError {
  e_class : error_class;
  e_message : string;
  e_stderr : option string;
  e_stdout : option string;
  e_code : option Z;
  e_commandlog : option (string * string)   (* { stdout, stderr } *)
}.

Definition new_Error (msg : string) : js_error :=
  mkError ClassError msg None None None None.
Definition new_TypeError (msg : string) : js_error :=
  mkError ClassTypeError msg None None None None.

(** ** The request *)

(** The options object.  An [option] field that is [None] was left out by the
    caller; [source] left out is [VUndefined]; [callback] tells whether a
    completion function was supplied. *)
Record options := mkOptions {
  source : value;
  tags : option (list string);
  useBufferLimit : option bool;
  maxBufferSize : option Z;
  config : option string;
  callback : bool
}.

Definition default {A : Type} (d : A) (o : option A) : A :=
  match o with Some a => a | None => d end.

(** ** The child process *)

(** A ['data'] event of one of the two streams; [data] is the text that
    [+=] appends for the chunk. *)
Inductive chunk := StdoutData (data : string) | StderrData (data : string).

(** What the child does once launched: the ['data'] events of its two
    streams in order of arrival, then ['close'] with the exit code. *)
Record child := mkChild {
  chunks : list chunk;
  exit_code : Z
}.

(** A launch: the argument vector and what was written to the child's
    standard input ([None]: nothing was written and the stream was not
    ended). *)
Definition launch : Type := (list value * option (list byte))%type.

(** All standard-output (standard-error) text of a child: for
    [metadataSync], the text of the buffer [spawnSync] hands over. *)
Fixpoint all_stdout (cs : list chunk) : string :=
  match cs with
  | [] => EmptyString
  | StdoutData d :: rest => d ++ all_stdout rest
  | StderrData _ :: rest => all_stdout rest
  end.

Fixpoint all_stderr (cs : list chunk) : string :=
  match cs with
  | [] => EmptyString
  | StdoutData _ :: rest => all_stderr rest
  | StderrData d :: rest => d ++ all_stderr rest
  end.

(** ** Helpers of the module *)

(** [prepareTags]: an absent tag list gives no arguments. *)
Definition prepareTags (tags : option (list string)) : list value :=
  match tags with
  | Some tags => map (fun tagname => VStr ("-" ++ tagname)) tags
  | None => []
  end.

(** One call of the completion function: [(error, result)]. *)
Definition cb_call : Type := (option js_error * value)%type.

(** [tryCallback]: calls the completion function when there is one. *)
Definition tryCallback (cbfunction : bool) (error : option js_error)
    (result : value) (calls : list cb_call) : list cb_call :=
  if cbfunction then (calls ++ [(error, result)])%list else calls.

(** The double-quote character, for the messages that quote [source]. *)
Definition dquote : string := String (ascii_of_nat 34) EmptyString.

Definition source_error_message : string :=
  dquote ++ "source" ++ dquote ++ " must be a string, [string] or Buffer".

Definition newline : string := String (ascii_of_nat 10) EmptyString.

(** ** What a call does *)

(** A promise is settled once: [resolve] and [reject] on a settled promise
    do nothing. *)
Inductive promise_state :=
| Pending
| Resolved (v : value)
| Rejected (e : js_error).

Definition resolve (v : value) (p : promise_state) : promise_state :=
  match p with Pending => Resolved v | _ => p end.

Definition reject (e : js_error) (p : promise_state) : promise_state :=
  match p with Pending => Rejected e | _ => p end.

(** What a call of [metadata] has done once the child has closed (or once
    validation has stopped it): the state of the returned promise, the calls
    of the completion function in order, and the launch of the child, if
    any. *)
Record async_run := mkAsync {
  a_promise : promise_state;
  a_calls : list cb_call;
  a_launch : option launch
}.

(** The two ['data'] handlers, on the pair [(exifdata, exiferr)]. *)
Definition on_data (acc : string * string) (c : chunk) : string * string :=
  match c with
  | StdoutData data => (fst acc ++ data, snd acc)
  | StderrData data => (fst acc, snd acc ++ data)
  end.

(** How a synchronous call completes. *)
Inductive completion :=
| Returned (v : value)
| Thrown (e : js_error).

(** What a call of [metadataSync] has done when it completes: how it
    completes, the launch of the child, if any, and the last value of its
    local [exifparams]. *)
Record sync_run := mkSync {
  s_completion : completion;
  s_launch : option launch;
  s_exifparams : list value
}.

(** ** A JSON reader and sample children, for concrete runs *)

(** A reader for a fragment of JSON: [null], [true], [false], integers
    without fraction or exponent, strings without escapes, arrays and
    objects, with white space between tokens.  On a text of the fragment it
    returns what [JSON.parse] returns; other texts are refused.  It is used
    only to run the two forms on concrete outputs of the fragment. *)
Module Fragment.

Definition is_ws (c : ascii) : bool :=
  let n := nat_of_ascii c in
  (n =? 32)%nat || (n =? 9)%nat || (n =? 10)%nat || (n =? 13)%nat.

Definition is_digit (c : ascii) : bool :=
  let n := nat_of_ascii c in (48 <=? n)%nat && (n <=? 57)%nat.

Definition is_quote (c : ascii) : bool := (nat_of_ascii c =? 34)%nat.

Fixpoint skip_ws (s : string) : string :=
  match s with
  | String c rest => if is_ws c then skip_ws rest else s
  | EmptyString => s
  end.

(** [expect word s]: [s] without its prefix [word]. *)
Fixpoint expect (word s : string) : option string :=
  match word, s with
  | EmptyString, _ => Some s
  | String a word', String b s' =>
      if Ascii.eqb a b then expect word' s' else None
  | String _ _, EmptyString => None
  end.

(** The digits at the front of [s]: their value after [acc], how many there
    are, and the text after them. *)
Fixpoint read_digits (s : string) (acc : Z) (count : nat)
  : Z * nat * string :=
  match s with
  | String c rest =>
      if is_digit c
      then read_digits rest (10 * acc + Z.of_nat (nat_of_ascii c - 48))
                       (S count)
      else (acc, count, s)
  | EmptyString => (acc, count, s)
  end.

Definition starts_fraction_or_exponent (s : string) : bool :=
  match s with
  | String "."%char _ | String "e"%char _ | String "E"%char _ => true
  | _ => false
  end.

(** An unsigned integer: at least one digit, no leading zero. *)
Definition read_nat (s : string) : option (Z * string) :=
  let '(n, count, rest) := read_digits s 0 0 in
  let leading_zero :=
    match s with String "0"%char _ => (1 <? count)%nat | _ => false end in
  if (count =? 0)%nat || leading_zero || starts_fraction_or_exponent rest
  then None
  else Some (n, rest).

(** The characters up to the closing quote; an escape or a control
    character is refused. *)
Fixpoint read_string (s : string) : option (string * string) :=
  match s with
  | EmptyString => None
  | String c rest =>
      if is_quote c then Some (EmptyString, rest)
      else if (nat_of_ascii c =? 92)%nat || (nat_of_ascii c <? 32)%nat
      then None
      else match read_string rest with
           | Some (body, rest') => Some (String c body, rest')
           | None => None
           end
  end.

(** A property read finds the last of several members of the same name, as
    the object [JSON.parse] builds keeps the last one. *)
Fixpoint set_prop (key : string) (v : value) (props : list (string * value))
  : list (string * value) :=
  match props with
  | [] => [(key, v)]
  | (k, w) :: rest =>
      if String.eqb k key then (k, v) :: rest
      else (k, w) :: set_prop key v rest
  end.

Fixpoint read_value (fuel : nat) (s : string) : option (value * string) :=
  match fuel with
  | O => None
  | S fuel =>
      match skip_ws s with
      | EmptyString => None
      | String c rest =>
          if is_quote c then
            match read_string rest with
            | Some (body, rest') => Some (VStr body, rest')
            | None => None
            end
          else if is_digit c then
            match read_nat (String c rest) with
            | Some (n, rest') => Some (VNum (inject_Z n), rest')
            | None => None
            end
          else
            match c with
            | "n"%char =>
                option_map (fun r => (VNull, r)) (expect "ull" rest)
            | "t"%char =>
                option_map (fun r => (VBool true, r)) (expect "rue" rest)
            | "f"%char =>
                option_map (fun r => (VBool false, r)) (expect "alse" rest)
            | "-"%char =>
                match read_nat rest with
                | Some (n, rest') => Some (VNum (inject_Z (- n)), rest')
                | None => None
                end
            | "["%char =>
                match skip_ws rest with
                | String "]"%char rest' => Some (VArr [], rest')
                | _ =>
                    match read_elements fuel rest with
                    | Some (elems, rest') => Some (VArr elems, rest')
                    | None => None
                    end
                end
            | "{"%char =>
                match skip_ws rest with
                | String "}"%char rest' => Some (VObj [], rest')
                | _ =>
                    match read_members fuel rest [] with
                    | Some (props, rest') => Some (VObj props, rest')
                    | None => None
                    end
                end
            | _ => None
            end
      end
  end

with read_elements (fuel : nat) (s : string)
  : option (list value * string) :=
  match fuel with
  | O => None
  | S fuel =>
      match read_value fuel s with
      | Some (v, rest) =>
          match skip_ws rest with
          | String ","%char rest' =>
              match read_elements fuel rest' with
              | Some (vs, rest'') => Some (v :: vs, rest'')
              | None => None
              end
          | String "]"%char rest' => Some ([v], rest')
          | _ => None
          end
      | None => None
      end
  end

with read_members (fuel : nat) (s : string) (props : list (string * value))
  : option (list (string * value) * string) :=
  match fuel with
  | O => None
  | S fuel =>
      match skip_ws s with
      | String q rest =>
          if is_quote q then
            match read_string rest with
            | Some (key, rest1) =>
                match skip_ws rest1 with
                | String ":"%char rest2 =>
                    match read_value fuel rest2 with
                    | Some (v, rest3) =>
                        let props := set_prop key v props in
                        match skip_ws rest3 with
                        | String ","%char rest4 =>
                            read_members fuel rest4 props
                        | String "}"%char rest4 => Some (props, rest4)
                        | _ => None
                        end
                    | None => None
                    end
                | _ => None
                end
            | None => None
            end
          else None
      | EmptyString => None
      end
  end.

Definition parse (text : string) : option value :=
  match read_value (S (String.length text)) text with
  | Some (v, rest) =>
      match skip_ws rest with
      | EmptyString => Some v
      | String _ _ => None
      end
  | None => None
  end.

End Fragment.

(** A child that ignores its arguments and input and prints the given
    chunks. *)
Definition prints (cs : list chunk) (code : Z)
  : list value -> option (list byte) -> child :=
  fun _ _ => mkChild cs code.

(** The options with only [source] given. *)
Definition only_source (src : value) : options :=
  mkOptions src None None None None false.

(** A text between double quotes. *)
Definition quoted (s : string) : string := dquote ++ s ++ dquote.

(** The output for one subject, and for two. *)
Definition one_record_text : string :=
  "[{" ++ quoted "Model" ++ ":" ++ quoted "X100" ++ "}]".

(** A child that prints one record in two chunks, warns, and exits with
    code 1. *)
Definition warns_and_prints_one_record
  : list value -> option (list byte) -> child :=
  prints [StdoutData "[{"; StderrData "Warning: minor";
          StdoutData (quoted "Model" ++ ":" ++ quoted "X100" ++ "}]")] 1.

(** A child that prints the same texts as [warns_and_prints_one_record],
    the warning first and the record in one chunk. *)
Definition warns_then_prints_one_record
  : list value -> option (list byte) -> child :=
  prints [StderrData "Warning: minor"; StdoutData one_record_text] 1.

(** A child that prints the record, no warning, and exits with code 0. *)
Definition prints_one_record : list value -> option (list byte) -> child :=
  prints [StdoutData one_record_text] 0.

(** A child that prints nothing at all and exits with code 2. *)
Definition prints_nothing : list value -> option (list byte) -> child :=
  prints [] 2.

(** A child that prints nothing on its standard output, complains, and
    exits with code 1. *)
Definition file_not_found : list value -> option (list byte) -> child :=
  prints [StderrData "File not found: a.jpg"] 1.

(** ** Notions used to state the contract *)

(** A source that passes both checks of either form: truthy, and a buffer, a
    string or an array. *)
Definition well_shaped (v : value) : bool :=
  truthy v && (isBuffer v || isString v || isArray v).

(** Whether [v] is an array whose elements are all strings. *)
Definition is_array_of_strings (v : value) : bool :=
  match v with
  | VArr elems => forallb isString elems
  | _ => false
  end.


(** Whether [v] has a [length] property that is 1. *)
Definition has_length_1 (v : value) : bool :=
  match get_length v with
  | Some len => strict_eq_1 len
  | None => false
  end.

Definition set_config (o : options) (c : option string) : options :=
  mkOptions (source o) (tags o) (useBufferLimit o) (maxBufferSize o) c
            (callback o).

Definition set_tags (o : options) (t : option (list string)) : options :=
  mkOptions (source o) t (useBufferLimit o) (maxBufferSize o) (config o)
            (callback o).

(** The argument of a tag: the tag after a single [-]. *)
Definition tag_argument (tagname : string) : value := VStr ("-" ++ tagname).

(** The arguments that name the subject: the placeholder [-] for a buffer,
    the path, or the paths in order. *)
Definition source_arguments (v : value) : list value :=
  match v with
  | VBuffer _ => [VStr "-"]
  | VStr _ => [v]
  | VArr elems => elems
  | _ => []
  end.

(** The custom-config pair: the flag, then the path. *)
Definition config_arguments (c : option string) : list value :=
  match c with
  | Some path => [VStr "-config"; VStr path]
  | None => []
  end.

(** The tag arguments, the JSON flag, then the subject. *)
Definition base_arguments (o : options) : list value :=
  (map tag_argument (default [] (tags o)) ++ VStr "-j"
     :: source_arguments (source o))%list.

(** What is piped into the child: a buffer source, cut when the limit is
    on. *)
Definition piped (o : options) : option (list byte) :=
  match source o with
  | VBuffer bytes =>
      Some (if default true (useBufferLimit o)
            then buffer_slice bytes 0 (default 10000 (maxBufferSize o))
            else bytes)
  | _ => None
  end.

(** The child a launch has started. *)
Definition child_of (exiftool : list value -> option (list byte) -> child)
    (l : option launch) : option child :=
  option_map (fun l => exiftool (fst l) (snd l)) l.

(** The accumulated standard output, standard error and the exit code of
    the child of a launch. *)
Definition stdout_of (c : option child) : option string :=
  option_map (fun c => all_stdout (chunks c)) c.
Definition stderr_of (c : option child) : option string :=
  option_map (fun c => all_stderr (chunks c)) c.
Definition exit_of (c : option child) : option Z :=
  option_map exit_code c.

Definition argv_of (l : option launch) : option (list value) :=
  option_map fst l.
Definition stdin_of (l : option launch) : option (option (list byte)) :=
  option_map snd l.

Definition set_limits (o : options) (limit : option bool) (size : option Z)
  : options :=
  mkOptions (source o) (tags o) limit size (config o) (callback o).

(** Two children that print the same text on their standard output, on
    their standard error, and that exit with the same code, whatever the
    chunks and the order in which the two streams deliver them. *)
Definition same_stdout (t1 t2 : list value -> option (list byte) -> child)
  : Prop :=
  forall argv stdin,
    all_stdout (chunks (t1 argv stdin)) = all_stdout (chunks (t2 argv stdin)).
Definition same_stderr (t1 t2 : list value -> option (list byte) -> child)
  : Prop :=
  forall argv stdin,
    all_stderr (chunks (t1 argv stdin)) = all_stderr (chunks (t2 argv stdin)).
Definition same_exit (t1 t2 : list value -> option (list byte) -> child)
  : Prop :=
  forall argv stdin, exit_code (t1 argv stdin) = exit_code (t2 argv stdin).

(** The texts of the standard-output (standard-error) chunks of a child, in
    order of arrival. *)
Fixpoint stdout_chunks (cs : list chunk) : list string :=
  match cs with
  | [] => []
  | StdoutData d :: rest => d :: stdout_chunks rest
  | StderrData _ :: rest => stdout_chunks rest
  end.

Fixpoint stderr_chunks (cs : list chunk) : list string :=
  match cs with
  | [] => []
  | StdoutData _ :: rest => stderr_chunks rest
  | StderrData d :: rest => d :: stderr_chunks rest
  end.

(** ** The two forms *)

Section Wrapper.

Variable JSON_parse : string -> option value.
Variable exiftool : list value -> option (list byte) -> child.

(** The body of the [try] block shared by the two forms: parse, then unwrap
    a value whose [length] is 1.  [None] when something in it throws. *)
Definition try_parse (text : string) : option value :=
  match JSON_parse text with
  | Some parseddata =>
      match get_length parseddata with
      | Some len =>
          Some (if strict_eq_1 len then index0 parseddata else parseddata)
      | None => None
      end
  | None => None
  end.

(** *** The asynchronous form *)

(** The ['close'] handler of [metadata]. *)
Definition on_close (callback : bool) (exifdata exiferr : string) (code : Z)
    (promise : promise_state) (calls : list cb_call)
  : promise_state * list cb_call :=
  match try_parse exifdata with
  | Some parseddata =>
      let calls := tryCallback callback None parseddata calls in
      (resolve parseddata promise, calls)
  | None =>
      let error :=
        if (0 <? String.length exiferr)%nat
        then new_Error ("Exiftool failed with exit code " ++ string_of_Z code
                        ++ ":" ++ newline ++ " " ++ exiferr)
        else new_Error "Could not parse exiftool output!" in
      let error := mkError (e_class error) (e_message error)
                     (Some exiferr) (Some exifdata) (Some code)
                     (e_commandlog error) in
      let calls := tryCallback callback (Some error) VUndefined calls in
      (reject error promise, calls)
  end.

Definition metadata (o : options) : async_run :=
  let tags := default [] (tags o) in
  let useBufferLimit := default true (useBufferLimit o) in
  let maxBufferSize := default 10000 (maxBufferSize o) in
  let callback := callback o in
  if negb (truthy (source o)) then
    let error := new_TypeError source_error_message in
    let calls := tryCallback callback (Some error) VUndefined [] in
    mkAsync (reject error Pending) calls None
  else
    let exifparams := prepareTags (Some tags) in
    let exifparams := (exifparams ++ [VStr "-j"])%list in
    (* the branch on the shape of [source]; the last case does not return *)
    let '(usingBuffer, exifparams, promise, calls) :=
      match source o with
      | VBuffer _ => (true, (exifparams ++ [VStr "-"])%list, Pending, [])
      | VStr _ => (false, (exifparams ++ [source o])%list, Pending, [])
      | VArr elems => (false, (exifparams ++ elems)%list, Pending, [])
      | _ =>
          let error := new_TypeError source_error_message in
          let calls := tryCallback callback (Some error) VUndefined [] in
          (false, exifparams, reject error Pending, calls)
      end in
    let exifparams :=
      match config o with
      | Some config => VStr "-config" :: VStr config :: exifparams
      | None => exifparams
      end in
    let stdin :=
      match source o with
      | VBuffer bytes =>
          if usingBuffer
          then Some (if useBufferLimit
                     then buffer_slice bytes 0 maxBufferSize
                     else bytes)
          else None
      | _ => None
      end in
    let exif := exiftool exifparams stdin in
    let '(exifdata, exiferr) :=
      fold_left on_data (chunks exif) (EmptyString, EmptyString) in
    let '(promise, calls) :=
      on_close callback exifdata exiferr (exit_code exif) promise calls in
    mkAsync promise calls (Some (exifparams, stdin)).

(** *** The synchronous form *)

Definition metadataSync (o : options) : sync_run :=
  let useBufferLimit := default true (useBufferLimit o) in
  let maxBufferSize := default 10000 (maxBufferSize o) in
  if negb (truthy (source o)) then
    mkSync (Thrown (new_Error ("Undefined " ++ dquote ++ "source" ++ dquote)))
           None []
  else
    let exifparams := prepareTags (tags o) in
    let exifparams := (exifparams ++ [VStr "-j"])%list in
    (* each accepted shape launches the child with the list as it is then *)
    let branch : option (list value * launch) :=
      match source o with
      | VBuffer bytes =>
          let exifparams := (exifparams ++ [VStr "-"])%list in
          let buf := if useBufferLimit
                     then buffer_slice bytes 0 maxBufferSize
                     else bytes in
          Some (exifparams, (exifparams, Some buf))
      | VStr _ =>
          let exifparams := (exifparams ++ [source o])%list in
          Some (exifparams, (exifparams, None))
      | VArr elems =>
          let exifparams := (exifparams ++ elems)%list in
          Some (exifparams, (exifparams, None))
      | _ => None
      end in
    match branch with
    | None =>
        mkSync (Thrown (new_TypeError source_error_message)) None exifparams
    | Some (exifparams, spawned) =>
        let etdata := exiftool (fst spawned) (snd spawned) in
        let etdata_stdout := all_stdout (chunks etdata) in
        let etdata_stderr := all_stderr (chunks etdata) in
        let exifparams :=
          match config o with
          | Some config => VStr "-config" :: VStr config :: exifparams
          | None => exifparams
          end in
        match try_parse etdata_stdout with
        | Some parseddata =>
            mkSync (Returned parseddata) (Some spawned) exifparams
        | None =>
            let err := new_Error "Could not parse data returned by ExifTool" in
            let err := mkError (e_class err) (e_message err) (e_stderr err)
                         (e_stdout err) (e_code err)
                         (Some (etdata_stdout, etdata_stderr)) in
            mkSync (Thrown err) (Some spawned) exifparams
        end
    end.

(** * Properties *)

Lemma append_assoc (a b c : string) : (a ++ b) ++ c = a ++ (b ++ c).
Proof.
  induction a as [|x a IH]; simpl; [reflexivity | now rewrite IH].
Qed.

Lemma string_of_Z_samples :
  string_of_Z 0 = "0" /\ string_of_Z 1 = "1" /\ string_of_Z 255 = "255"
  /\ string_of_Z (-2) = "-2".
Proof.
  repeat split.
Qed.

Lemma append_nil_r (a : string) : a ++ EmptyString = a.
Proof.
  induction a as [|x a IH]; simpl; [reflexivity | now rewrite IH].
Qed.

(** The ['data'] handlers accumulate each stream in order of arrival. *)
Lemma on_data_accumulates (cs : list chunk) (exifdata exiferr : string) :
  fold_left on_data cs (exifdata, exiferr)
  = (exifdata ++ all_stdout cs, exiferr ++ all_stderr cs).
Proof.
  revert exifdata exiferr.
  induction cs as [|c cs IH]; intros exifdata exiferr; simpl.
  - now rewrite !append_nil_r.
  - destruct c as [data | data]; simpl; rewrite IH;
      now rewrite append_assoc.
Qed.


(** The state of a call of [metadata] whose source is well shaped, in terms
    of the child it launched. *)
Lemma metadata_well_shaped (o : options) :
  well_shaped (source o) = true ->
  exists l : launch,
    a_launch (metadata o) = Some l /\
    (a_promise (metadata o), a_calls (metadata o))
    = on_close (callback o)
        (all_stdout (chunks (exiftool (fst l) (snd l))))
        (all_stderr (chunks (exiftool (fst l) (snd l))))
        (exit_code (exiftool (fst l) (snd l))) Pending [].
Proof.
  unfold well_shaped, metadata. intros H.
  apply andb_true_iff in H. destruct H as [Ht Hs]. rewrite Ht. simpl.
  destruct (source o); try discriminate Hs;
    match goal with
    | |- context [exiftool ?argv ?stdin] =>
        exists (argv, stdin); simpl;
        rewrite (on_data_accumulates (chunks (exiftool argv stdin)));
        simpl; destruct (on_close _ _ _ _ _ _); split; reflexivity
    end.
Qed.

(** The launch of [metadata]: every truthy source reaches [spawn], the
    config pair in front. *)
Lemma metadata_launch (o : options) :
  truthy (source o) = true ->
  a_launch (metadata o)
  = Some ((config_arguments (config o) ++ base_arguments o)%list, piped o).
Proof.
  unfold metadata, base_arguments, piped, tag_argument. intros Ht.
  rewrite Ht. simpl.
  destruct (source o), (config o), (tags o); simpl;
    rewrite on_data_accumulates; simpl;
    destruct (on_close _ _ _ _ _ _); simpl;
    rewrite <- ?app_assoc, ?app_nil_r; reflexivity.
Qed.

(** The launch of [metadataSync]: only a well-shaped source reaches
    [spawnSync], and the config pair is not in the list then. *)
Lemma metadataSync_launch (o : options) :
  s_launch (metadataSync o)
  = if well_shaped (source o) then Some (base_arguments o, piped o)
    else None.
Proof.
  unfold metadataSync, well_shaped, base_arguments, piped, tag_argument.
  destruct (truthy (source o)); simpl; [|reflexivity].
  destruct (source o), (tags o); simpl;
    try reflexivity;
    destruct (try_parse _); simpl;
    rewrite <- ?app_assoc; reflexivity.
Qed.

(** How [metadataSync] completes once its child has closed. *)
Lemma metadataSync_well_shaped (o : options) :
  well_shaped (source o) = true ->
  let etdata := exiftool (base_arguments o) (piped o) in
  s_completion (metadataSync o)
  = match try_parse (all_stdout (chunks etdata)) with
    | Some parseddata => Returned parseddata
    | None =>
        Thrown (mkError ClassError "Could not parse data returned by ExifTool"
                  None None None
                  (Some (all_stdout (chunks etdata),
                         all_stderr (chunks etdata))))
    end.
Proof.
  unfold metadataSync, well_shaped, base_arguments, piped, tag_argument.
  intros H. apply andb_true_iff in H. destruct H as [Ht Hs]. rewrite Ht.
  simpl.
  destruct (source o), (tags o); try discriminate Hs; simpl;
    rewrite <- ?app_assoc; simpl;
    destruct (try_parse _); reflexivity.
Qed.

(** How [metadata] settles once its child has closed. *)
Lemma metadata_settles (o : options) :
  well_shaped (source o) = true ->
  let exif :=
    exiftool (config_arguments (config o) ++ base_arguments o)%list
             (piped o) in
  (a_promise (metadata o), a_calls (metadata o))
  = on_close (callback o) (all_stdout (chunks exif))
             (all_stderr (chunks exif)) (exit_code exif) Pending [].
Proof.
  intros Hs. destruct (metadata_well_shaped o Hs) as [l [Hl Hc]].
  assert (Ht : truthy (source o) = true).
  { unfold well_shaped in Hs. now apply andb_true_iff in Hs. }
  rewrite (metadata_launch o Ht) in Hl. injection Hl as <-. exact Hc.
Qed.

Lemma well_shaped_truthy (v : value) :
  well_shaped v = true -> truthy v = true.
Proof.
  unfold well_shaped. intros H. now apply andb_true_iff in H.
Qed.

(** Opens the child of a launched call in a hypothesis about its streams or
    its exit code. *)
Ltac open_child H :=
  first
    [ rewrite metadata_launch in H by (now apply well_shaped_truthy)
    | rewrite metadataSync_launch in H ];
  try match type of H with
      | context [well_shaped ?v] =>
          let E := fresh "Eshape" in
          destruct (well_shaped v) eqn:E; [|discriminate H]
      end;
  simpl in H; injection H as H.



(** Claim C3, as amended.  When the accumulated standard output does not
    parse: the asynchronous form, on a well-shaped source, rejects with an
    error that carries the exit code and the two captured texts, and whose
    message is made of the exit code and the standard-error text when that
    text is not empty; the synchronous form throws an error with a fixed
    message that carries the two captured texts under [commandlog] and no
    exit code. *)
Theorem parse_failure_errors
    (o : options) (out err : string) (code : Z) :
  JSON_parse out = None ->
  (well_shaped (source o) = true ->
   stdout_of (child_of exiftool (a_launch (metadata o))) = Some out ->
   stderr_of (child_of exiftool (a_launch (metadata o))) = Some err ->
   exit_of (child_of exiftool (a_launch (metadata o))) = Some code ->
   exists e,
     a_promise (metadata o) = Rejected e /\
     a_calls (metadata o) = tryCallback (callback o) (Some e) VUndefined [] /\
     e_code e = Some code /\ e_stdout e = Some out /\ e_stderr e = Some err /\
     (err <> EmptyString ->
      e_message e = "Exiftool failed with exit code " ++ string_of_Z code
                    ++ ":" ++ newline ++ " " ++ err))
  /\
  (stdout_of (child_of exiftool (s_launch (metadataSync o))) = Some out ->
   stderr_of (child_of exiftool (s_launch (metadataSync o))) = Some err ->
   exists e,
     s_completion (metadataSync o) = Thrown e /\
     e_message e = "Could not parse data returned by ExifTool" /\
     e_commandlog e = Some (out, err) /\
     e_code e = None /\ e_stdout e = None /\ e_stderr e = None).
Proof.
  intros Hparse.
  assert (Htry : try_parse out = None)
    by (unfold try_parse; now rewrite Hparse).
  split.
  - intros Hs Hout Herr Hcode.
    open_child Hout. open_child Herr. open_child Hcode.
    pose proof (metadata_settles o Hs) as Hm. cbv zeta in Hm.
    rewrite Hout, Herr, Hcode in Hm. unfold on_close in Hm.
    rewrite Htry in Hm. injection Hm as Hp Hcalls.
    eexists. split; [exact Hp|]. split; [exact Hcalls|]. simpl.
    repeat split.
    intros Hne. destruct err as [|c err]; [now destruct Hne | reflexivity].
  - intros Hout Herr. open_child Hout.
    rewrite metadataSync_launch, Eshape in Herr. simpl in Herr.
    injection Herr as Herr.
    rewrite (metadataSync_well_shaped o Eshape). cbv zeta.
    rewrite Hout, Herr, Htry. eexists. repeat split.
Qed.

(** Claim C4, as amended.  A truthy source that is neither a string, nor an
    array, nor a buffer makes the synchronous form throw the type-mismatch
    error without launching a child, and makes the asynchronous form reject
    its promise with the same error and hand it first to the completion
    function, if any. *)
Theorem unsupported_source_is_refused (o : options) :
  truthy (source o) = true ->
  isString (source o) = false ->
  isArray (source o) = false ->
  isBuffer (source o) = false ->
  s_completion (metadataSync o) = Thrown (new_TypeError source_error_message)
  /\ s_launch (metadataSync o) = None
  /\ a_promise (metadata o) = Rejected (new_TypeError source_error_message)
  /\ (callback o = true ->
      hd_error (a_calls (metadata o))
      = Some (Some (new_TypeError source_error_message), VUndefined)).
Proof.
  intros Ht Hstr Harr Hbuf.
  unfold metadataSync, metadata. rewrite Ht. simpl.
  destruct (source o); try discriminate; simpl;
    rewrite on_data_accumulates; simpl;
    unfold on_close; destruct (try_parse _); simpl;
    (repeat split; intros ->; reflexivity).
Qed.

(** Claim C5.  In the synchronous form a custom config changes neither the
    launch of the child nor the way the call completes: the child is
    launched with the list as it stands before the prepend, and the config
    pair only reaches the front of the local list afterwards. *)
Theorem sync_config_is_inert (o : options) (path : string) :
  s_launch (metadataSync (set_config o (Some path)))
  = s_launch (metadataSync (set_config o None))
  /\ s_completion (metadataSync (set_config o (Some path)))
     = s_completion (metadataSync (set_config o None))
  /\ (forall argv stdin,
        s_launch (metadataSync (set_config o (Some path)))
        = Some (argv, stdin) ->
        argv = base_arguments o /\
        s_exifparams (metadataSync (set_config o (Some path)))
        = VStr "-config" :: VStr path :: argv).
Proof.
  unfold metadataSync, set_config, base_arguments, tag_argument. simpl.
  destruct (truthy (source o)); simpl;
    [|repeat split; intros; discriminate].
  destruct (source o), (tags o); simpl;
    try (repeat split; intros; discriminate);
    destruct (try_parse _); simpl;
    (split; [reflexivity|]); (split; [reflexivity|]);
    intros argv stdin H; injection H as <- _;
    rewrite <- ?app_assoc; split; reflexivity.
Qed.

(** Claim C6, as amended.  A falsy source stops both forms before any child
    is launched.  The asynchronous form rejects its promise with the
    type-mismatch error and hands the same error to the completion
    function, if any; the synchronous form throws a plain error whose
    message says that the source is undefined. *)
Theorem falsy_source_is_refused (o : options) :
  truthy (source o) = false ->
  a_promise (metadata o) = Rejected (new_TypeError source_error_message)
  /\ a_calls (metadata o)
     = (if callback o
        then [(Some (new_TypeError source_error_message), VUndefined)]
        else [])
  /\ a_launch (metadata o) = None
  /\ s_completion (metadataSync o)
     = Thrown (new_Error ("Undefined " ++ dquote ++ "source" ++ dquote))
  /\ s_launch (metadataSync o) = None.
Proof.
  intros Hf. unfold metadata, metadataSync, tryCallback. rewrite Hf. simpl.
  destruct (callback o); repeat split.
Qed.

(** [slice(0, n)] with [n] not negative keeps the first [n] bytes. *)
Lemma buffer_slice_prefix (bytes : list byte) (n : Z) :
  0 <= n -> buffer_slice bytes 0 n = firstn (Z.to_nat n) bytes.
Proof.
  intros Hn. unfold buffer_slice, adjustOffset. simpl.
  destruct (Z.eqb_spec n 0) as [->|Hn0]; [reflexivity|].
  destruct (Z.ltb_spec n 0) as [|_]; [lia|].
  destruct (Z.ltb_spec n (Z.of_nat (List.length bytes))) as [Hlt|Hge].
  - destruct (Z.ltb_spec 0 n); [|lia]. now rewrite Z.sub_0_r.
  - rewrite (firstn_all2 (n := Z.to_nat n)) by lia.
    destruct (Z.ltb_spec 0 (Z.of_nat (List.length bytes))) as [Hpos|Hz].
    + rewrite Z.sub_0_r, Nat2Z.id. apply firstn_all.
    + destruct bytes; [reflexivity | simpl in Hz; lia].
Qed.

(** [slice(0, n)] with [n] negative drops the last [-n] bytes. *)
Lemma buffer_slice_negative (bytes : list byte) (n : Z) :
  n < 0 ->
  buffer_slice bytes 0 n
  = firstn (Z.to_nat (Z.of_nat (List.length bytes) + n)) bytes.
Proof.
  intros Hn. unfold buffer_slice, adjustOffset. simpl.
  destruct (Z.eqb_spec n 0) as [|_]; [lia|].
  destruct (Z.ltb_spec n 0) as [_|]; [|lia].
  destruct (Z.ltb_spec 0 (n + Z.of_nat (List.length bytes))) as [Hpos|Hneg].
  - destruct (Z.ltb_spec 0 (n + Z.of_nat (List.length bytes))); [|lia].
    now rewrite Z.sub_0_r, Z.add_comm.
  - simpl. replace (Z.to_nat (Z.of_nat (List.length bytes) + n)) with O by lia.
    reflexivity.
Qed.

(** Claim C7, as amended.  A buffer source is piped into the child and the
    input stream is then ended, in both forms alike: with the limit on and a
    limit that is not negative, the bytes written are the first
    [maxBufferSize] bytes of the buffer, so at most that many; with the
    limit off they are the whole buffer.  For any other source, a child
    that is launched gets nothing written to its input. *)
Theorem buffer_is_piped (o : options) :
  (forall bytes, source o = VBuffer bytes ->
   exists written,
     stdin_of (a_launch (metadata o)) = Some (Some written) /\
     stdin_of (s_launch (metadataSync o)) = Some (Some written) /\
     (default true (useBufferLimit o) = true ->
      0 <= default 10000 (maxBufferSize o) ->
      written = firstn (Z.to_nat (default 10000 (maxBufferSize o))) bytes /\
      Z.of_nat (List.length written) <= default 10000 (maxBufferSize o)) /\
     (default true (useBufferLimit o) = false -> written = bytes))
  /\
  (isBuffer (source o) = false ->
   (forall stdin, stdin_of (a_launch (metadata o)) = Some stdin ->
                  stdin = None) /\
   (forall stdin, stdin_of (s_launch (metadataSync o)) = Some stdin ->
                  stdin = None)).
Proof.
  split.
  - intros bytes Hsrc.
    assert (Hs : well_shaped (source o) = true) by (now rewrite Hsrc).
    rewrite metadata_launch by (now apply well_shaped_truthy).
    rewrite metadataSync_launch, Hs. unfold piped. rewrite Hsrc. simpl.
    eexists. split; [reflexivity|]. split; [reflexivity|].
    split.
    + intros -> Hmax. rewrite (buffer_slice_prefix bytes _ Hmax).
      split; [reflexivity|].
      pose proof (firstn_le_length
                    (Z.to_nat (default 10000 (maxBufferSize o))) bytes).
      lia.
    + intros ->. reflexivity.
  - intros Hnb. split; intros stdin.
    + destruct (truthy (source o)) eqn:Ht.
      * rewrite (metadata_launch o Ht). unfold piped.
        destruct (source o); try discriminate Hnb; simpl;
          intros H; injection H as <-; reflexivity.
      * unfold metadata. rewrite Ht. simpl. discriminate.
    + rewrite metadataSync_launch. unfold piped.
      destruct (well_shaped (source o)); [|discriminate].
      destruct (source o); try discriminate Hnb; simpl;
        intros H; injection H as <-; reflexivity.
Qed.

(** Claim C8.  Whenever a child is launched, its argument list holds the
    tags in the order given, each after a single [-], all of them before
    the JSON flag [-j]; the subject follows the flag, and in the
    asynchronous form the config pair comes first.  The tags [Model] and
    [-ThumbnailImage] give [-Model] and [--ThumbnailImage], in that
    order. *)
Theorem tags_come_before_the_json_flag (o : options) :
  (forall argv, argv_of (a_launch (metadata o)) = Some argv ->
   argv = (config_arguments (config o)
           ++ map (fun tagname => VStr ("-" ++ tagname))
                  (default [] (tags o))
           ++ VStr "-j" :: source_arguments (source o))%list)
  /\
  (forall argv, argv_of (s_launch (metadataSync o)) = Some argv ->
   argv = (map (fun tagname => VStr ("-" ++ tagname)) (default [] (tags o))
           ++ VStr "-j" :: source_arguments (source o))%list)
  /\
  (tags o = Some ["Model"; "-ThumbnailImage"] ->
   map (fun tagname => VStr ("-" ++ tagname)) (default [] (tags o))
   = [VStr "-Model"; VStr "--ThumbnailImage"]).
Proof.
  split; [|split].
  - intros argv. destruct (truthy (source o)) eqn:Ht.
    + rewrite (metadata_launch o Ht). simpl. intros H.
      injection H as <-. reflexivity.
    + unfold metadata. rewrite Ht. simpl. discriminate.
  - intros argv. rewrite metadataSync_launch.
    destruct (well_shaped (source o)); [|discriminate]. simpl.
    intros H. injection H as <-. reflexivity.
  - intros ->. reflexivity.
Qed.

(** The [try] block on a parsed value whose [length] can be read. *)
Lemma try_parse_value (text : string) (v : value) :
  JSON_parse text = Some v ->
  v <> VNull -> v <> VUndefined ->
  try_parse text = Some (if has_length_1 v then index0 v else v).
Proof.
  intros Hparse Hnull Hundef. unfold try_parse, has_length_1.
  rewrite Hparse.
  destruct v; try reflexivity; [now destruct Hundef | now destruct Hnull].
Qed.

(** Claim C9, as amended.  The unwrap looks at the [length] property of the
    parsed value, whatever kind of value it is.  In the synchronous form
    whenever the child has run, and in the asynchronous form for a source
    that passed validation: every parsed value other than [null] is a
    success, the value itself when its [length] is not 1, its element [0]
    when it is, so the empty array and an object whose [length] is not 1
    come back unchanged, and a one-character string comes back as that
    character; a parsed [null] fails with the error of the form for an
    output that does not parse. *)
Theorem unwrap_is_keyed_on_length :
  (forall (o : options) (text : string) (v : value),
   JSON_parse text = Some v ->
   v <> VNull -> v <> VUndefined ->
   (well_shaped (source o) = true ->
    stdout_of (child_of exiftool (a_launch (metadata o))) = Some text ->
    a_promise (metadata o)
    = Resolved (if has_length_1 v then index0 v else v))
   /\
   (stdout_of (child_of exiftool (s_launch (metadataSync o))) = Some text ->
    s_completion (metadataSync o)
    = Returned (if has_length_1 v then index0 v else v)))
  /\ (forall (o : options) (text : string),
      JSON_parse text = Some VNull ->
      (well_shaped (source o) = true ->
       stdout_of (child_of exiftool (a_launch (metadata o))) = Some text ->
       exists err code,
         stderr_of (child_of exiftool (a_launch (metadata o))) = Some err
         /\ exit_of (child_of exiftool (a_launch (metadata o))) = Some code
         /\ a_promise (metadata o)
            = Rejected
                (mkError ClassError
                   (if (0 <? String.length err)%nat
                    then "Exiftool failed with exit code "
                         ++ string_of_Z code ++ ":" ++ newline ++ " " ++ err
                    else "Could not parse exiftool output!")
                   (Some err) (Some text) (Some code) None))
      /\
      (stdout_of (child_of exiftool (s_launch (metadataSync o))) = Some text ->
       exists err,
         stderr_of (child_of exiftool (s_launch (metadataSync o))) = Some err
         /\ s_completion (metadataSync o)
            = Thrown (mkError ClassError
                        "Could not parse data returned by ExifTool"
                        None None None (Some (text, err)))))
  /\ has_length_1 (VArr []) = false
  /\ (forall props, strict_eq_1 (get_prop "length" props) = false ->
      has_length_1 (VObj props) = false)
  /\ (forall c, has_length_1 (VStr (String c EmptyString)) = true /\
                index0 (VStr (String c EmptyString))
                = VStr (String c EmptyString)).
Proof.
  split; [|split; [|repeat split; auto]].
  - intros o text v Hparse Hnull Hundef.
    pose proof (try_parse_value text v Hparse Hnull Hundef) as Htry.
    split.
    + intros Hs Hout. open_child Hout.
      pose proof (metadata_settles o Hs) as Hm. cbv zeta in Hm.
      rewrite Hout in Hm. unfold on_close in Hm. rewrite Htry in Hm.
      now injection Hm as Hp _.
    + intros Hout. open_child Hout.
      rewrite (metadataSync_well_shaped o Eshape). cbv zeta.
      now rewrite Hout, Htry.
  - intros o text Hparse.
    assert (Htry : try_parse text = None)
      by (unfold try_parse; now rewrite Hparse).
    split.
    + intros Hs Hout.
      pose proof (metadata_settles o Hs) as Hm. cbv zeta in Hm.
      rewrite metadata_launch by (now apply well_shaped_truthy).
      rewrite metadata_launch in Hout by (now apply well_shaped_truthy).
      simpl in Hout. injection Hout as Hout. simpl.
      rewrite Hout in Hm. unfold on_close in Hm. rewrite Htry in Hm.
      injection Hm as Hp _. do 2 eexists.
      split; [reflexivity|]. split; [reflexivity|].
      rewrite Hp. simpl. destruct (0 <? _)%nat; reflexivity.
    + intros Hout. rewrite metadataSync_launch in Hout.
      rewrite metadataSync_launch.
      destruct (well_shaped (source o)) eqn:Hs; [|discriminate Hout].
      simpl in Hout. injection Hout as Hout. simpl.
      rewrite (metadataSync_well_shaped o Hs). cbv zeta.
      rewrite Hout, Htry. eexists. split; reflexivity.
Qed.

(** Claim C10.  The synchronous form with [tags] left out does what it does
    with the empty list of tags: [prepareTags] gives no argument for an
    absent list, and the argument list of the child starts with [-j]. *)
Theorem sync_omitted_tags (o : options) :
  prepareTags None = []
  /\ metadataSync (set_tags o None) = metadataSync (set_tags o (Some []))
  /\ (forall argv,
        argv_of (s_launch (metadataSync (set_tags o None))) = Some argv ->
        exists rest, argv = VStr "-j" :: rest).
Proof.
  split; [reflexivity|]. split; [reflexivity|].
  intros argv. rewrite metadataSync_launch. simpl.
  destruct (well_shaped (source o)); [|discriminate].
  unfold base_arguments. simpl. intros H. injection H as <-.
  eexists. reflexivity.
Qed.

(** What the amended C4 leaves open.  In [metadata] the branch that refuses
    the source does not return: the child is launched all the same, without
    any subject, and its ['close'] handler calls the completion function a
    second time. *)
Lemma async_launches_despite_refusal (o : options) :
  truthy (source o) = true ->
  isString (source o) = false ->
  isArray (source o) = false ->
  isBuffer (source o) = false ->
  a_launch (metadata o)
  = Some ((config_arguments (config o)
           ++ map tag_argument (default [] (tags o)) ++ [VStr "-j"])%list,
          None)
  /\ (callback o = true -> List.length (a_calls (metadata o)) = 2%nat).
Proof.
  intros Ht Hstr Harr Hbuf. split.
  - rewrite (metadata_launch o Ht). unfold base_arguments, piped.
    destruct (source o); try discriminate; reflexivity.
  - intros Hcb. unfold metadata. rewrite Ht, Hcb. simpl.
    destruct (source o); try discriminate; simpl;
      rewrite on_data_accumulates; simpl;
      unfold on_close; destruct (try_parse _); reflexivity.
Qed.

(** ** Whole runs *)

(** The whole run of [metadata] on a truthy source, in terms of the child
    it launches.  A source that is not well shaped has its promise rejected
    and its completion function called before the launch. *)
Lemma metadata_run (o : options) :
  truthy (source o) = true ->
  metadata o
  = let argv := (config_arguments (config o) ++ base_arguments o)%list in
    let exif := exiftool argv (piped o) in
    let refused := new_TypeError source_error_message in
    let settled :=
      on_close (callback o) (all_stdout (chunks exif))
        (all_stderr (chunks exif)) (exit_code exif)
        (if well_shaped (source o) then Pending else Rejected refused)
        (if well_shaped (source o) then []
         else tryCallback (callback o) (Some refused) VUndefined []) in
    mkAsync (fst settled) (snd settled) (Some (argv, piped o)).
Proof.
  unfold metadata, well_shaped, base_arguments, piped, tag_argument.
  intros Ht. rewrite !Ht. simpl.
  destruct (source o), (config o), (tags o); simpl;
    rewrite on_data_accumulates; simpl;
    rewrite <- ?app_assoc, ?app_nil_r; simpl;
    destruct (on_close _ _ _ _ _ _); reflexivity.
Qed.

(** The whole run of [metadataSync] on a well-shaped source. *)
Lemma metadataSync_run (o : options) :
  well_shaped (source o) = true ->
  metadataSync o
  = let etdata := exiftool (base_arguments o) (piped o) in
    mkSync
      match try_parse (all_stdout (chunks etdata)) with
      | Some parseddata => Returned parseddata
      | None =>
          Thrown (mkError ClassError
                    "Could not parse data returned by ExifTool"
                    None None None
                    (Some (all_stdout (chunks etdata),
                           all_stderr (chunks etdata))))
      end
      (Some (base_arguments o, piped o))
      (config_arguments (config o) ++ base_arguments o)%list.
Proof.
  unfold metadataSync, well_shaped, base_arguments, piped, tag_argument.
  intros H. apply andb_true_iff in H. destruct H as [Ht Hs]. rewrite Ht.
  simpl.
  destruct (source o), (tags o), (config o); try discriminate Hs; simpl;
    rewrite <- ?app_assoc; simpl;
    destruct (try_parse _); reflexivity.
Qed.


(** ** Further properties of the two forms *)

(** X1.  The asynchronous form launches a child for every truthy source,
    the synchronous form only for a truthy buffer, string or array. *)
Theorem child_is_launched_iff (o : options) :
  (a_launch (metadata o) <> None <-> truthy (source o) = true)
  /\ (s_launch (metadataSync o) <> None <-> well_shaped (source o) = true).
Proof.
  split.
  - destruct (truthy (source o)) eqn:Ht.
    + rewrite (metadata_launch o Ht). split; [reflexivity | discriminate].
    + unfold metadata. rewrite Ht. simpl.
      split; [intros H; now destruct H | discriminate].
  - rewrite metadataSync_launch. destruct (well_shaped (source o)).
    + split; [reflexivity | discriminate].
    + split; [intros H; now destruct H | discriminate].
Qed.

(** The promise the ['close'] handler leaves is settled. *)
Lemma on_close_settles (cb : bool) (exifdata exiferr : string) (code : Z)
    (promise : promise_state) (calls : list cb_call) :
  fst (on_close cb exifdata exiferr code promise calls) <> Pending.
Proof.
  unfold on_close. destruct (try_parse exifdata); simpl;
    destruct promise; discriminate.
Qed.


(** X2.  Once the child has closed, or once a falsy source has been
    refused, the promise of [metadata] is settled: no path leaves it
    pending. *)
Theorem promise_is_settled (o : options) :
  a_promise (metadata o) <> Pending.
Proof.
  destruct (truthy (source o)) eqn:Ht.
  - rewrite (metadata_run o Ht). cbv zeta. simpl. apply on_close_settles.
  - unfold metadata. rewrite Ht. simpl. discriminate.
Qed.



(** X5.  For a source that passed validation: when the standard output
    cannot be used (it does not parse, or it parses to [null]) and the
    child wrote nothing on its standard error, the asynchronous form
    rejects with the generic parse error, which still carries the exit code
    and the two captured texts. *)
Theorem async_generic_parse_error
    (o : options) (out : string) (code : Z) :
  well_shaped (source o) = true ->
  JSON_parse out = None \/ JSON_parse out = Some VNull ->
  stdout_of (child_of exiftool (a_launch (metadata o))) = Some out ->
  stderr_of (child_of exiftool (a_launch (metadata o))) = Some EmptyString ->
  exit_of (child_of exiftool (a_launch (metadata o))) = Some code ->
  a_promise (metadata o)
  = Rejected (mkError ClassError "Could not parse exiftool output!"
                (Some EmptyString) (Some out) (Some code) None).
Proof.
  intros Hs Hparse Hout Herr Hcode.
  assert (Htry : try_parse out = None).
  { unfold try_parse. destruct Hparse as [-> | ->]; reflexivity. }
  open_child Hout. open_child Herr. open_child Hcode.
  pose proof (metadata_settles o Hs) as Hm. cbv zeta in Hm.
  rewrite Hout, Herr, Hcode in Hm. unfold on_close in Hm.
  rewrite Htry in Hm. now injection Hm as Hp _.
Qed.



(** X8.  In the asynchronous form a custom config only adds its pair in
    front: the launch is the launch of the same request without config,
    with the flag and then the path before everything else. *)
Theorem async_config_in_front (o : options) (path : string) :
  a_launch (metadata (set_config o (Some path)))
  = option_map
      (fun l : launch => (VStr "-config" :: VStr path :: fst l, snd l))
      (a_launch (metadata (set_config o None))).
Proof.
  destruct (truthy (source o)) eqn:Ht.
  - rewrite (metadata_launch (set_config o (Some path)) Ht).
    rewrite (metadata_launch (set_config o None) Ht). reflexivity.
  - unfold metadata. simpl. rewrite Ht. reflexivity.
Qed.


(** [slice(0, n)] of the empty buffer is empty. *)
Lemma buffer_slice_empty (n : Z) : buffer_slice [] 0 n = [].
Proof.
  unfold buffer_slice. now rewrite skipn_nil, firstn_nil.
Qed.

(** X10.  The limit options matter for a buffer only, and the size only
    when the limit is on: for any other source both forms run as if the two
    options were not given, and with the limit off every size gives the
    same run. *)
Theorem limits_matter_for_buffers_only
    (o : options) (limit : option bool) (size size' : option Z) :
  (isBuffer (source o) = false ->
   metadata (set_limits o limit size) = metadata (set_limits o None None)
   /\ metadataSync (set_limits o limit size)
      = metadataSync (set_limits o None None))
  /\ metadata (set_limits o (Some false) size)
     = metadata (set_limits o (Some false) size')
  /\ metadataSync (set_limits o (Some false) size)
     = metadataSync (set_limits o (Some false) size').
Proof.
  split; [intros Hnb; split | split];
    unfold metadata, metadataSync, set_limits; simpl;
    destruct (truthy (source o)); simpl; try reflexivity;
    destruct (source o); try discriminate Hnb; reflexivity.
Qed.

(** X11.  With the two limit options left out, a buffer of at most 10000
    bytes is piped whole and a longer one is cut to its first 10000 bytes,
    in both forms. *)
Theorem default_limit_is_10000 (o : options) (bytes : list byte) :
  source o = VBuffer bytes ->
  useBufferLimit o = None ->
  maxBufferSize o = None ->
  exists written,
    stdin_of (a_launch (metadata o)) = Some (Some written)
    /\ stdin_of (s_launch (metadataSync o)) = Some (Some written)
    /\ (Z.of_nat (List.length bytes) <= 10000 -> written = bytes)
    /\ (10000 < Z.of_nat (List.length bytes) ->
        written = firstn (Z.to_nat 10000) bytes
        /\ Z.of_nat (List.length written) = 10000).
Proof.
  intros Hsrc Hlimit Hsize.
  assert (Hs : well_shaped (source o) = true) by (now rewrite Hsrc).
  rewrite metadata_launch by (now apply well_shaped_truthy).
  rewrite metadataSync_launch, Hs. unfold piped.
  rewrite Hsrc, Hlimit, Hsize. simpl default.
  rewrite buffer_slice_prefix by lia.
  eexists. split; [reflexivity|]. split; [reflexivity|]. split.
  - intros Hle. apply firstn_all2. lia.
  - intros Hlt. split; [reflexivity|]. rewrite length_firstn. lia.
Qed.

(** X12.  With the limit on, a size of zero pipes nothing and still ends
    the input stream, and a negative size [n] pipes the buffer without its
    last [-n] bytes (nothing when the buffer is no longer than that), in
    both forms. *)
Theorem zero_and_negative_limit
    (o : options) (bytes : list byte) (n : Z) :
  source o = VBuffer bytes ->
  default true (useBufferLimit o) = true ->
  maxBufferSize o = Some n ->
  (n = 0 ->
   stdin_of (a_launch (metadata o)) = Some (Some [])
   /\ stdin_of (s_launch (metadataSync o)) = Some (Some []))
  /\ (n < 0 ->
      stdin_of (a_launch (metadata o))
      = Some (Some (firstn (List.length bytes - Z.to_nat (- n)) bytes))
      /\ stdin_of (s_launch (metadataSync o))
         = Some (Some (firstn (List.length bytes - Z.to_nat (- n)) bytes))).
Proof.
  intros Hsrc Hlimit Hsize.
  assert (Hs : well_shaped (source o) = true) by (now rewrite Hsrc).
  rewrite metadata_launch by (now apply well_shaped_truthy).
  rewrite metadataSync_launch, Hs. unfold piped.
  rewrite Hsrc, Hlimit, Hsize. simpl default. split.
  - intros ->. rewrite buffer_slice_prefix by lia. split; reflexivity.
  - intros Hn. rewrite buffer_slice_negative by lia.
    replace (Z.to_nat (Z.of_nat (List.length bytes) + n))
      with (List.length bytes - Z.to_nat (- n))%nat by lia.
    split; reflexivity.
Qed.

(** X13.  The empty string is refused as a source, being falsy, whereas the
    empty array and the empty buffer are accepted: the child is launched
    with no subject after [-j] for the array, and with the placeholder [-]
    and an empty input, which is ended, for the buffer. *)
Theorem empty_sources (o : options) :
  (source o = VStr EmptyString ->
   a_launch (metadata o) = None /\ s_launch (metadataSync o) = None)
  /\ (source o = VArr [] ->
      a_launch (metadata o)
      = Some ((config_arguments (config o)
               ++ map tag_argument (default [] (tags o))
               ++ [VStr "-j"])%list, None)
      /\ s_launch (metadataSync o)
         = Some ((map tag_argument (default [] (tags o))
                  ++ [VStr "-j"])%list, None))
  /\ (source o = VBuffer [] ->
      a_launch (metadata o)
      = Some ((config_arguments (config o)
               ++ map tag_argument (default [] (tags o))
               ++ [VStr "-j"; VStr "-"])%list, Some [])
      /\ s_launch (metadataSync o)
         = Some ((map tag_argument (default [] (tags o))
                  ++ [VStr "-j"; VStr "-"])%list, Some [])).
Proof.
  split; [|split]; intros Hsrc.
  - unfold metadata, metadataSync. rewrite Hsrc. split; reflexivity.
  - rewrite metadata_launch by (now rewrite Hsrc).
    rewrite metadataSync_launch. unfold base_arguments, piped.
    rewrite Hsrc. split; reflexivity.
  - rewrite metadata_launch by (now rewrite Hsrc).
    rewrite metadataSync_launch. unfold base_arguments, piped.
    rewrite Hsrc. simpl.
    destruct (default true (useBufferLimit o));
      rewrite ?buffer_slice_empty; split; reflexivity.
Qed.


End Wrapper.

(** * Concrete runs *)


(** Claim C2, refuted as stated: the same request and the same child, which
    prints nothing parseable and complains, end in two different errors.
    The asynchronous one has the exit code and the complaint in its message
    and the exit code as a property; the synchronous one has neither. *)
Lemma forms_disagree_on_parse_failure :
  exists e1 e2,
    a_promise (metadata Fragment.parse file_not_found
                 (only_source (VStr "a.jpg"))) = Rejected e1
    /\ s_completion (metadataSync Fragment.parse file_not_found
                       (only_source (VStr "a.jpg"))) = Thrown e2
    /\ e_message e1
       = "Exiftool failed with exit code 1:" ++ newline
         ++ " File not found: a.jpg"
    /\ e_message e2 = "Could not parse data returned by ExifTool"
    /\ e_code e1 = Some 1 /\ e_code e2 = None
    /\ e1 <> e2.
Proof.
  do 2 eexists. repeat split. discriminate.
Qed.


(** Claim C3, refuted as stated: the error of the synchronous form has no
    exit code and a message without the standard-error text, although that
    text is not empty. *)
Lemma sync_parse_error_lacks_exit_code :
  s_completion (metadataSync Fragment.parse file_not_found
                  (only_source (VStr "a.jpg")))
  = Thrown (mkError ClassError "Could not parse data returned by ExifTool"
              None None None (Some (EmptyString, "File not found: a.jpg")))
  /\ all_stderr (chunks (file_not_found [VStr "-j"; VStr "a.jpg"] None))
     <> EmptyString.
Proof.
  split; [reflexivity | discriminate].
Qed.

(** Claim C3 as amended, at work. *)
Lemma parse_failure_errors_run :
  (exists e,
     a_promise (metadata Fragment.parse file_not_found
                  (only_source (VStr "a.jpg"))) = Rejected e
     /\ e_code e = Some 1
     /\ e_stdout e = Some EmptyString
     /\ e_stderr e = Some "File not found: a.jpg"
     /\ e_message e = "Exiftool failed with exit code 1:" ++ newline
                      ++ " File not found: a.jpg")
  /\ exists e,
       s_completion (metadataSync Fragment.parse file_not_found
                       (only_source (VStr "a.jpg"))) = Thrown e
       /\ e_commandlog e = Some (EmptyString, "File not found: a.jpg").
Proof.
  destruct (parse_failure_errors Fragment.parse file_not_found
              (only_source (VStr "a.jpg")) EmptyString
              "File not found: a.jpg" 1 eq_refl) as [Hasync Hsync].
  split.
  - destruct (Hasync eq_refl eq_refl eq_refl eq_refl)
      as [e [Hp [_ [Hcode [Hout [Herr Hmsg]]]]]].
    exists e. split; [exact Hp|]. split; [exact Hcode|].
    split; [exact Hout|]. split; [exact Herr|].
    apply Hmsg. discriminate.
  - destruct (Hsync eq_refl eq_refl) as [e [Hc [_ [Hlog _]]]].
    exists e. split; assumption.
Defined.

(** Claim C4, refuted as stated: an array of numbers is truthy and is
    neither a string, nor an array of strings, nor a buffer; the
    synchronous form launches the child on it and returns what the child
    printed. *)
Lemma array_of_numbers_is_accepted :
  truthy (VArr [VNum 1]) = true
  /\ isString (VArr [VNum 1]) = false
  /\ is_array_of_strings (VArr [VNum 1]) = false
  /\ isBuffer (VArr [VNum 1]) = false
  /\ s_launch (metadataSync Fragment.parse warns_and_prints_one_record
                 (only_source (VArr [VNum 1])))
     = Some ([VStr "-j"; VNum 1], None)
  /\ s_completion (metadataSync Fragment.parse warns_and_prints_one_record
                     (only_source (VArr [VNum 1])))
     = Returned (VObj [("Model", VStr "X100")])
  /\ a_promise (metadata Fragment.parse warns_and_prints_one_record
                  (only_source (VArr [VNum 1])))
     = Resolved (VObj [("Model", VStr "X100")]).
Proof.
  repeat split.
Qed.

(** Claim C4 as amended, at work: a number as source. *)
Lemma unsupported_source_is_refused_run :
  s_completion (metadataSync Fragment.parse warns_and_prints_one_record
                  (mkOptions (VNum 42) None None None None true))
  = Thrown (new_TypeError source_error_message)
  /\ s_launch (metadataSync Fragment.parse warns_and_prints_one_record
                 (mkOptions (VNum 42) None None None None true)) = None
  /\ a_promise (metadata Fragment.parse warns_and_prints_one_record
                  (mkOptions (VNum 42) None None None None true))
     = Rejected (new_TypeError source_error_message)
  /\ hd_error (a_calls (metadata Fragment.parse warns_and_prints_one_record
                          (mkOptions (VNum 42) None None None None true)))
     = Some (Some (new_TypeError source_error_message), VUndefined).
Proof.
  destruct (unsupported_source_is_refused Fragment.parse
              warns_and_prints_one_record
              (mkOptions (VNum 42) None None None None true)
              eq_refl eq_refl eq_refl eq_refl)
    as [Hthrown [Hnone [Hrejected Hcall]]].
  split; [exact Hthrown|]. split; [exact Hnone|].
  split; [exact Hrejected|]. apply Hcall. reflexivity.
Defined.

(** Claim C5 at work: the config pair is in the local list at the end and
    not in the launch. *)
Lemma sync_config_is_inert_run :
  s_launch (metadataSync Fragment.parse warns_and_prints_one_record
              (mkOptions (VStr "a.jpg") None None None (Some "my.cfg")
                         false))
  = Some ([VStr "-j"; VStr "a.jpg"], None)
  /\ s_exifparams (metadataSync Fragment.parse warns_and_prints_one_record
                     (mkOptions (VStr "a.jpg") None None None
                                (Some "my.cfg") false))
     = [VStr "-config"; VStr "my.cfg"; VStr "-j"; VStr "a.jpg"].
Proof.
  split; [reflexivity|].
  apply (proj2 (proj2 (proj2 (sync_config_is_inert Fragment.parse
                         warns_and_prints_one_record
                         (only_source (VStr "a.jpg")) "my.cfg"))
                      [VStr "-j"; VStr "a.jpg"] None eq_refl)).
Defined.

(** Claim C6, refuted as stated: with no source the synchronous form throws
    a plain error, not a type error. *)
Lemma sync_missing_source_is_a_plain_error :
  exists e,
    s_completion (metadataSync Fragment.parse file_not_found
                    (only_source VUndefined)) = Thrown e
    /\ e_class e = ClassError
    /\ e_class e <> ClassTypeError
    /\ e_message e = "Undefined " ++ quoted "source".
Proof.
  eexists. split; [reflexivity|]. split; [reflexivity|].
  split; [discriminate | reflexivity].
Qed.

(** Claim C6 as amended, at work: the empty string as source, with a
    completion function. *)
Lemma falsy_source_is_refused_run :
  a_promise (metadata Fragment.parse file_not_found
               (mkOptions (VStr EmptyString) None None None None true))
  = Rejected (new_TypeError source_error_message)
  /\ a_calls (metadata Fragment.parse file_not_found
                (mkOptions (VStr EmptyString) None None None None true))
     = [(Some (new_TypeError source_error_message), VUndefined)]
  /\ a_launch (metadata Fragment.parse file_not_found
                 (mkOptions (VStr EmptyString) None None None None true))
     = None
  /\ s_completion (metadataSync Fragment.parse file_not_found
                     (mkOptions (VStr EmptyString) None None None None
                                true))
     = Thrown (new_Error ("Undefined " ++ dquote ++ "source" ++ dquote))
  /\ s_launch (metadataSync Fragment.parse file_not_found
                 (mkOptions (VStr EmptyString) None None None None true))
     = None.
Proof.
  exact (falsy_source_is_refused Fragment.parse file_not_found
           (mkOptions (VStr EmptyString) None None None None true)
           eq_refl).
Defined.

(** Claim C7, refuted as stated: with the limit on and [maxBufferSize] at
    -1, two of the three bytes of the buffer are written, which is more
    than -1. *)
Lemma negative_limit_writes_bytes :
  stdin_of (a_launch (metadata Fragment.parse file_not_found
                        (mkOptions (VBuffer [x01; x02; x03]) None
                                   (Some true) (Some (-1)) None false)))
  = Some (Some [x01; x02])
  /\ stdin_of (s_launch (metadataSync Fragment.parse file_not_found
                           (mkOptions (VBuffer [x01; x02; x03]) None
                                      (Some true) (Some (-1)) None false)))
     = Some (Some [x01; x02])
  /\ ~ Z.of_nat (List.length [x01; x02]) <= -1.
Proof.
  split; [reflexivity|]. split; [reflexivity|]. simpl. lia.
Qed.

(** Claim C7 as amended, at work: a limit of 2 on a buffer of three bytes,
    and a path, for which nothing is written. *)
Lemma buffer_is_piped_run :
  (exists written,
     stdin_of (a_launch (metadata Fragment.parse file_not_found
                           (mkOptions (VBuffer [x01; x02; x03]) None None
                                      (Some 2) None false)))
     = Some (Some written)
     /\ written = [x01; x02]
     /\ Z.of_nat (List.length written) <= 2)
  /\ forall stdin,
       stdin_of (s_launch (metadataSync Fragment.parse file_not_found
                             (only_source (VStr "a.jpg")))) = Some stdin ->
       stdin = None.
Proof.
  split.
  - destruct (proj1 (buffer_is_piped Fragment.parse file_not_found
                       (mkOptions (VBuffer [x01; x02; x03]) None None
                                  (Some 2) None false))
                [x01; x02; x03] eq_refl)
      as [written [Ha [_ [Hon _]]]].
    exists written. split; [exact Ha|].
    apply Hon; [reflexivity | simpl; lia].
  - apply (proj2 (buffer_is_piped Fragment.parse file_not_found
                    (only_source (VStr "a.jpg"))) eq_refl).
Defined.

(** Claim C8 at work: two tags, a config and a path. *)
Lemma tags_come_before_the_json_flag_run :
  argv_of (a_launch (metadata Fragment.parse warns_and_prints_one_record
                       (mkOptions (VStr "a.jpg")
                                  (Some ["Model"; "-ThumbnailImage"])
                                  None None (Some "my.cfg") false)))
  = Some [VStr "-config"; VStr "my.cfg"; VStr "-Model";
          VStr "--ThumbnailImage"; VStr "-j"; VStr "a.jpg"]
  /\ [VStr "-config"; VStr "my.cfg"; VStr "-Model";
      VStr "--ThumbnailImage"; VStr "-j"; VStr "a.jpg"]
     = ([VStr "-config"; VStr "my.cfg"]
        ++ map (fun tagname => VStr ("-" ++ tagname))
               ["Model"; "-ThumbnailImage"]
        ++ VStr "-j" :: [VStr "a.jpg"])%list
  /\ argv_of (s_launch (metadataSync Fragment.parse
                          warns_and_prints_one_record
                          (mkOptions (VStr "a.jpg")
                                     (Some ["Model"; "-ThumbnailImage"])
                                     None None (Some "my.cfg") false)))
     = Some [VStr "-Model"; VStr "--ThumbnailImage"; VStr "-j";
             VStr "a.jpg"]
  /\ [VStr "-Model"; VStr "--ThumbnailImage"; VStr "-j"; VStr "a.jpg"]
     = (map (fun tagname => VStr ("-" ++ tagname))
            ["Model"; "-ThumbnailImage"]
        ++ VStr "-j" :: [VStr "a.jpg"])%list.
Proof.
  destruct (tags_come_before_the_json_flag Fragment.parse
              warns_and_prints_one_record
              (mkOptions (VStr "a.jpg") (Some ["Model"; "-ThumbnailImage"])
                         None None (Some "my.cfg") false))
    as [Hasync [Hsync Htags]].
  split; [reflexivity|]. split.
  - exact (Hasync [VStr "-config"; VStr "my.cfg"; VStr "-Model";
                   VStr "--ThumbnailImage"; VStr "-j"; VStr "a.jpg"]
                  eq_refl).
  - split; [reflexivity|].
    exact (Hsync [VStr "-Model"; VStr "--ThumbnailImage"; VStr "-j";
                  VStr "a.jpg"] eq_refl).
Defined.

(** Claim C9, refuted as stated: the text [null] parses, and both forms
    fail on it, with the error of a text that does not parse. *)
Lemma parsed_null_is_a_failure :
  Fragment.parse "null" = Some VNull
  /\ a_promise (metadata Fragment.parse (prints [StdoutData "null"] 0)
                  (only_source (VStr "a.jpg")))
     = Rejected (mkError ClassError "Could not parse exiftool output!"
                   (Some EmptyString) (Some "null") (Some 0) None)
  /\ s_completion (metadataSync Fragment.parse (prints [StdoutData "null"] 0)
                     (only_source (VStr "a.jpg")))
     = Thrown (mkError ClassError "Could not parse data returned by ExifTool"
                 None None None (Some ("null", EmptyString))).
Proof.
  repeat split.
Qed.

(** Claim C9 as amended, at work: a one-character string comes back as its
    first character, by the same rule that unwraps a one-element array, and
    [null] makes the synchronous form throw its parse error. *)
Lemma unwrap_is_keyed_on_length_run :
  a_promise (metadata Fragment.parse (prints [StdoutData (quoted "a")] 0)
               (only_source (VStr "a.jpg")))
  = Resolved (VStr "a")
  /\ s_completion (metadataSync Fragment.parse
                     (prints [StdoutData (quoted "a")] 0)
                     (only_source (VStr "a.jpg")))
     = Returned (VStr "a")
  /\ exists err,
       s_completion (metadataSync Fragment.parse
                       (prints [StdoutData "null"] 0)
                       (only_source (VStr "a.jpg")))
       = Thrown (mkError ClassError
                   "Could not parse data returned by ExifTool"
                   None None None (Some ("null", err))).
Proof.
  assert (Hnull : VStr "a" <> VNull) by discriminate.
  assert (Hundef : VStr "a" <> VUndefined) by discriminate.
  destruct (proj1 (unwrap_is_keyed_on_length Fragment.parse
                     (prints [StdoutData (quoted "a")] 0))
              (only_source (VStr "a.jpg")) (quoted "a") (VStr "a")
              eq_refl Hnull Hundef) as [Hasync Hsync].
  split; [|split].
  - apply (Hasync eq_refl eq_refl).
  - apply (Hsync eq_refl).
  - destruct (proj2 (proj1 (proj2 (unwrap_is_keyed_on_length
                                     Fragment.parse
                                     (prints [StdoutData "null"] 0)))
                       (only_source (VStr "a.jpg")) "null" eq_refl)
                eq_refl) as [err [_ Hthrown]].
    exists err. exact Hthrown.
Defined.

(** Claim C10 at work: no tags given, the list starts with [-j]. *)
Lemma sync_omitted_tags_run :
  metadataSync Fragment.parse warns_and_prints_one_record
    (only_source (VStr "a.jpg"))
  = metadataSync Fragment.parse warns_and_prints_one_record
      (mkOptions (VStr "a.jpg") (Some []) None None None false)
  /\ exists rest, [VStr "-j"; VStr "a.jpg"] = VStr "-j" :: rest.
Proof.
  destruct (sync_omitted_tags Fragment.parse warns_and_prints_one_record
              (only_source (VStr "a.jpg"))) as [_ [Hsame Hhead]].
  split.
  - exact Hsame.
  - apply (Hhead [VStr "-j"; VStr "a.jpg"] eq_refl).
Defined.

(** * The child seen through its streams *)

(** A run of [metadata] depends on the child through the text accumulated
    from each stream and through the exit code. *)
Lemma metadata_reads_texts
    (JSON_parse : string -> option value)
    (t1 t2 : list value -> option (list byte) -> child) (o : options) :
  same_stdout t1 t2 -> same_stderr t1 t2 -> same_exit t1 t2 ->
  metadata JSON_parse t1 o = metadata JSON_parse t2 o.
Proof.
  intros Hout Herr Hexit. destruct (truthy (source o)) eqn:Ht.
  - rewrite (metadata_run JSON_parse t1 o Ht).
    rewrite (metadata_run JSON_parse t2 o Ht). cbv zeta.
    now rewrite (Hout _ _), (Herr _ _), (Hexit _ _).
  - unfold metadata. rewrite Ht. reflexivity.
Qed.

Lemma all_stdout_of_chunks (cs : list chunk) :
  all_stdout cs = fold_right append EmptyString (stdout_chunks cs).
Proof.
  induction cs as [|[d|d] cs IH]; simpl; [reflexivity | | exact IH].
  now rewrite IH.
Qed.

Lemma all_stderr_of_chunks (cs : list chunk) :
  all_stderr cs = fold_right append EmptyString (stderr_chunks cs).
Proof.
  induction cs as [|[d|d] cs IH]; simpl; [reflexivity | exact IH |].
  now rewrite IH.
Qed.

(** X19.  The asynchronous form keeps one accumulator for each stream: two
    children that deliver the same standard-output chunks in the same
    order, the same standard-error chunks in the same order, and the same
    exit code give the same run, however the chunks of one stream fall
    between the chunks of the other. *)
Theorem interleaving_is_irrelevant
    (JSON_parse : string -> option value)
    (t1 t2 : list value -> option (list byte) -> child) (o : options) :
  (forall argv stdin,
     stdout_chunks (chunks (t1 argv stdin))
     = stdout_chunks (chunks (t2 argv stdin))) ->
  (forall argv stdin,
     stderr_chunks (chunks (t1 argv stdin))
     = stderr_chunks (chunks (t2 argv stdin))) ->
  same_exit t1 t2 ->
  metadata JSON_parse t1 o = metadata JSON_parse t2 o.
Proof.
  intros Hout Herr Hexit. apply metadata_reads_texts; [| |exact Hexit].
  - intros argv stdin. now rewrite !all_stdout_of_chunks, Hout.
  - intros argv stdin. now rewrite !all_stderr_of_chunks, Herr.
Qed.

(** Claim C2, as amended.  With no custom config and a source that passed
    validation, the two forms launch the child with the same argument list
    and the same piped bytes.  Whenever the text the asynchronous form has
    accumulated from the standard output is the text the synchronous form
    is handed, one succeeds exactly when the other does, and with the same
    value.  When both fail on the output, their errors are built
    differently: the asynchronous one has a message made of the exit code
    and the standard-error text (a fixed one when that text is empty) and
    carries [stderr], [stdout] and [code]; the synchronous one has another
    fixed message and carries the two texts under [commandlog] only. *)
Theorem forms_agree_on_the_same_text
    (JSON_parse : string -> option value)
    (spawned spawnedSync : list value -> option (list byte) -> child)
    (o : options) :
  well_shaped (source o) = true ->
  config o = None ->
  a_launch (metadata JSON_parse spawned o)
  = s_launch (metadataSync JSON_parse spawnedSync o)
  /\ (stdout_of (child_of spawned (a_launch (metadata JSON_parse spawned o)))
      = stdout_of (child_of spawnedSync
                     (s_launch (metadataSync JSON_parse spawnedSync o))) ->
      (forall v, a_promise (metadata JSON_parse spawned o) = Resolved v
                 <-> s_completion (metadataSync JSON_parse spawnedSync o)
                     = Returned v)
      /\ ((exists e, a_promise (metadata JSON_parse spawned o) = Rejected e)
          <-> (exists e, s_completion (metadataSync JSON_parse spawnedSync o)
                         = Thrown e)))
  /\ (forall e1 e2,
        a_promise (metadata JSON_parse spawned o) = Rejected e1 ->
        s_completion (metadataSync JSON_parse spawnedSync o) = Thrown e2 ->
        exists out1 err1 code1 out2 err2,
          stdout_of (child_of spawned
                       (a_launch (metadata JSON_parse spawned o)))
          = Some out1
          /\ stderr_of (child_of spawned
                          (a_launch (metadata JSON_parse spawned o)))
             = Some err1
          /\ exit_of (child_of spawned
                        (a_launch (metadata JSON_parse spawned o)))
             = Some code1
          /\ stdout_of (child_of spawnedSync
                          (s_launch (metadataSync JSON_parse spawnedSync o)))
             = Some out2
          /\ stderr_of (child_of spawnedSync
                          (s_launch (metadataSync JSON_parse spawnedSync o)))
             = Some err2
          /\ e1 = mkError ClassError
                    (if (0 <? String.length err1)%nat
                     then "Exiftool failed with exit code "
                          ++ string_of_Z code1 ++ ":" ++ newline ++ " "
                          ++ err1
                     else "Could not parse exiftool output!")
                    (Some err1) (Some out1) (Some code1) None
          /\ e2 = mkError ClassError
                    "Could not parse data returned by ExifTool"
                    None None None (Some (out2, err2))
          /\ e1 <> e2).
Proof.
  intros Hs Hc.
  pose proof (metadata_settles JSON_parse spawned o Hs) as Hm.
  pose proof (metadataSync_well_shaped JSON_parse spawnedSync o Hs) as Hy.
  cbv zeta in Hm, Hy. rewrite Hc in Hm. simpl in Hm.
  rewrite (metadata_launch JSON_parse spawned o
             (well_shaped_truthy _ Hs)).
  rewrite metadataSync_launch, Hs, Hc. simpl.
  split; [reflexivity|]. unfold on_close in Hm. rewrite Hy. split.
  - intros Htext. injection Htext as Htext. rewrite Htext in Hm.
    destruct (try_parse _ _) as [parseddata|]; injection Hm as Hp _;
      rewrite Hp; simpl.
    + split; [intros v; split; intros H; injection H as <-; reflexivity|].
      split; intros [e He]; discriminate He.
    + split; [intros v; split; intros H; discriminate H|].
      split; intros _; eexists; reflexivity.
  - intros e1 e2.
    destruct (try_parse _ (all_stdout (chunks (spawned _ _))));
      injection Hm as Hp _; rewrite Hp; simpl; intros H1;
      [discriminate H1|].
    destruct (try_parse _ _); intros H2; [discriminate H2|].
    injection H1 as <-. injection H2 as <-.
    do 5 eexists. do 5 (split; [reflexivity|]).
    split; [destruct (0 <? _)%nat; reflexivity|].
    split; [reflexivity | discriminate].
Qed.

(** X15.  The synchronous form never reads the exit code: two children that
    print the same texts give the same run, whatever their exit codes. *)
Theorem sync_ignores_exit_code
    (JSON_parse : string -> option value)
    (t1 t2 : list value -> option (list byte) -> child) (o : options) :
  same_stdout t1 t2 -> same_stderr t1 t2 ->
  metadataSync JSON_parse t1 o = metadataSync JSON_parse t2 o.
Proof.
  intros Hout Herr. unfold metadataSync.
  destruct (truthy (source o)); [|reflexivity].
  destruct (source o); simpl; try reflexivity;
    now rewrite (Hout _ _), (Herr _ _).
Qed.

(** X16.  Whether the asynchronous form succeeds, and with which value,
    depends on the standard output alone: neither the standard error nor
    the exit code of the child can turn a success into a failure or change
    its value. *)
Theorem async_success_depends_on_stdout
    (JSON_parse : string -> option value)
    (t1 t2 : list value -> option (list byte) -> child) (o : options)
    (v : value) :
  same_stdout t1 t2 ->
  a_promise (metadata JSON_parse t1 o) = Resolved v
  <-> a_promise (metadata JSON_parse t2 o) = Resolved v.
Proof.
  intros Hout. destruct (truthy (source o)) eqn:Ht.
  - rewrite (metadata_run JSON_parse t1 o Ht).
    rewrite (metadata_run JSON_parse t2 o Ht). cbv zeta. simpl.
    unfold on_close. rewrite (Hout _ _).
    destruct (try_parse _), (well_shaped (source o)); simpl;
      split; intros H; try discriminate H; exact H.
  - unfold metadata. rewrite Ht. reflexivity.
Qed.

(** * Concrete runs of the further properties *)

(** X1 at work: a number as source is launched by [metadata] only. *)
Lemma child_is_launched_iff_run :
  a_launch (metadata Fragment.parse prints_nothing (only_source (VNum 42)))
  <> None
  /\ ~ s_launch (metadataSync Fragment.parse prints_nothing
                   (only_source (VNum 42))) <> None.
Proof.
  destruct (child_is_launched_iff Fragment.parse prints_nothing
              (only_source (VNum 42))) as [Hasync Hsync].
  split.
  - apply Hasync. reflexivity.
  - intros H. apply Hsync in H. discriminate H.
Defined.


(** X5 at work: a child that prints nothing and exits with code 2. *)
Lemma async_generic_parse_error_run :
  a_promise (metadata Fragment.parse prints_nothing
               (only_source (VStr "a.jpg")))
  = Rejected (mkError ClassError "Could not parse exiftool output!"
                (Some EmptyString) (Some EmptyString) (Some 2) None).
Proof.
  exact (async_generic_parse_error Fragment.parse prints_nothing
           (only_source (VStr "a.jpg")) EmptyString 2
           eq_refl (or_introl eq_refl) eq_refl eq_refl eq_refl).
Defined.




(** X10 at work: limit options on a path. *)
Lemma limits_matter_for_buffers_only_run :
  metadata Fragment.parse prints_one_record
    (mkOptions (VStr "a.jpg") None (Some true) (Some 5) None false)
  = metadata Fragment.parse prints_one_record (only_source (VStr "a.jpg"))
  /\ metadataSync Fragment.parse prints_one_record
       (mkOptions (VStr "a.jpg") None (Some true) (Some 5) None false)
     = metadataSync Fragment.parse prints_one_record
         (only_source (VStr "a.jpg")).
Proof.
  exact (proj1 (limits_matter_for_buffers_only Fragment.parse
                  prints_one_record (only_source (VStr "a.jpg"))
                  (Some true) (Some 5) None) eq_refl).
Defined.

(** X11 at work: three bytes, no limit option. *)
Lemma default_limit_is_10000_run :
  exists written,
    stdin_of (a_launch (metadata Fragment.parse prints_one_record
                          (only_source (VBuffer [x01; x02; x03]))))
    = Some (Some written)
    /\ written = [x01; x02; x03].
Proof.
  destruct (default_limit_is_10000 Fragment.parse prints_one_record
              (only_source (VBuffer [x01; x02; x03])) [x01; x02; x03]
              eq_refl eq_refl eq_refl) as [written [Ha [_ [Hwhole _]]]].
  exists written. split; [exact Ha|]. apply Hwhole. simpl. lia.
Defined.

(** X12 at work: a size of -1 drops the last byte, a size of 0 all. *)
Lemma zero_and_negative_limit_run :
  stdin_of (s_launch (metadataSync Fragment.parse prints_one_record
                        (mkOptions (VBuffer [x01; x02; x03]) None None
                                   (Some (-1)) None false)))
  = Some (Some [x01; x02])
  /\ stdin_of (a_launch (metadata Fragment.parse prints_one_record
                           (mkOptions (VBuffer [x01; x02; x03]) None None
                                      (Some 0) None false)))
     = Some (Some []).
Proof.
  split.
  - refine (proj2 (proj2 (zero_and_negative_limit Fragment.parse
                            prints_one_record
                            (mkOptions (VBuffer [x01; x02; x03]) None None
                                       (Some (-1)) None false)
                            [x01; x02; x03] (-1) eq_refl eq_refl eq_refl)
                     _)).
    lia.
  - exact (proj1 (proj1 (zero_and_negative_limit Fragment.parse
                           prints_one_record
                           (mkOptions (VBuffer [x01; x02; x03]) None None
                                      (Some 0) None false)
                           [x01; x02; x03] 0 eq_refl eq_refl eq_refl)
                    eq_refl)).
Defined.

(** X13 at work: the empty array with one tag. *)
Lemma empty_sources_run :
  a_launch (metadata Fragment.parse prints_nothing
              (mkOptions (VArr []) (Some ["Model"]) None None None false))
  = Some ([VStr "-Model"; VStr "-j"], None)
  /\ s_launch (metadataSync Fragment.parse prints_nothing
                 (mkOptions (VArr []) (Some ["Model"]) None None None
                            false))
     = Some ([VStr "-Model"; VStr "-j"], None).
Proof.
  exact (proj1 (proj2 (empty_sources Fragment.parse prints_nothing
                         (mkOptions (VArr []) (Some ["Model"]) None None
                                    None false)))
               eq_refl).
Defined.


(** X15 at work: exit code 0 or 3. *)
Lemma sync_ignores_exit_code_run :
  metadataSync Fragment.parse prints_one_record (only_source (VStr "a.jpg"))
  = metadataSync Fragment.parse (prints [StdoutData one_record_text] 3)
      (only_source (VStr "a.jpg")).
Proof.
  apply sync_ignores_exit_code; intros argv stdin; reflexivity.
Defined.

(** X16 at work: the warning and exit code 1 do not undo the success. *)
Lemma async_success_depends_on_stdout_run :
  a_promise (metadata Fragment.parse warns_then_prints_one_record
               (only_source (VStr "a.jpg")))
  = Resolved (VObj [("Model", VStr "X100")]).
Proof.
  apply (proj1 (async_success_depends_on_stdout Fragment.parse
                  prints_one_record warns_then_prints_one_record
                  (only_source (VStr "a.jpg"))
                  (VObj [("Model", VStr "X100")])
                  (fun argv stdin => eq_refl))).
  reflexivity.
Defined.


(** X19 at work: the warning between the two chunks of the record, or after
    them. *)
Lemma interleaving_is_irrelevant_run :
  metadata Fragment.parse warns_and_prints_one_record
    (only_source (VStr "a.jpg"))
  = metadata Fragment.parse
      (prints [StdoutData "[{";
               StdoutData (quoted "Model" ++ ":" ++ quoted "X100" ++ "}]");
               StderrData "Warning: minor"] 1)
      (only_source (VStr "a.jpg")).
Proof.
  apply interleaving_is_irrelevant; intros argv stdin; reflexivity.
Defined.

(** Claim C2 as amended, at work: the record delivered in two chunks to the
    asynchronous form and in one piece to the synchronous form gives the
    same launch and the same value. *)
Lemma forms_agree_on_the_same_text_run :
  a_launch (metadata Fragment.parse warns_and_prints_one_record
              (only_source (VStr "a.jpg")))
  = s_launch (metadataSync Fragment.parse warns_then_prints_one_record
                (only_source (VStr "a.jpg")))
  /\ s_completion (metadataSync Fragment.parse warns_then_prints_one_record
                     (only_source (VStr "a.jpg")))
     = Returned (VObj [("Model", VStr "X100")]).
Proof.
  destruct (forms_agree_on_the_same_text Fragment.parse
              warns_and_prints_one_record warns_then_prints_one_record
              (only_source (VStr "a.jpg")) eq_refl eq_refl)
    as [Hlaunch [Hvalue _]].
  split; [exact Hlaunch|].
  apply (proj1 (Hvalue eq_refl)). reflexivity.
Defined.

(** Claim C1, where the code departs from it: a number as source, and a
    child that prints one record.  The standard output parses as a JSON
    array of one element, yet the promise of [metadata] is rejected with
    the type error: the branch that refuses the source does not return, so
    the child runs after the promise is settled.  [metadataSync] stops at
    the refusal. *)
Lemma parsed_array_after_refusal :
  stdout_of (child_of prints_one_record
               (a_launch (metadata Fragment.parse prints_one_record
                            (only_source (VNum 42)))))
  = Some one_record_text
  /\ Fragment.parse one_record_text
     = Some (VArr [VObj [("Model", VStr "X100")]])
  /\ a_promise (metadata Fragment.parse prints_one_record
                  (only_source (VNum 42)))
     = Rejected (new_TypeError source_error_message)
  /\ a_promise (metadata Fragment.parse prints_one_record
                  (only_source (VNum 42)))
     <> Resolved (VObj [("Model", VStr "X100")])
  /\ s_launch (metadataSync Fragment.parse prints_one_record
                 (only_source (VNum 42))) = None.
Proof.
  split; [reflexivity|]. split; [reflexivity|]. split; [reflexivity|].
  split; [discriminate | reflexivity].
Qed.
